(** * Precomputed lookup tables: [create_database], the key stringification
    of [generate_sample_database.py], [query_database], [simulate_neuron].

    The Python functions are embedded as executable Rocq functions.
    Dictionaries are finite maps ([gmap]); Python integers are [Z];
    exceptions are values of [PyExc] carried by [outcome]. *)

From Stdlib Require Import ZArith String Ascii List.
From Stdlib Require Import DecimalString DecimalPos DecimalZ.
From stdpp Require Import gmap strings list list_numbers sorting.

Local Open Scope Z_scope.
Set Warnings "-register-all,-clear-no-such-hyp".

(** ** Python values *)

(** The values the three functions can be handed.  Integers, booleans (a
    subclass of [int] in Python), [None], tuples and lists are explicit.
    Any other object (a float, a [str], a [dict], ...) is observed by this
    program only through [isinstance], [str()] and [repr()], so it is given
    by the two texts those calls produce. *)
Inductive PyVal : Type :=
  | PyInt (z : Z)
  | PyBool (b : bool)
  | PyNone
  | PyTuple (items : list PyVal)
  | PyList (items : list PyVal)
  | PyObj (str_text repr_text : string).

(** Exceptions raised by the module, with their message. *)
Inductive PyExc : Type :=
  | ValueError (msg : string)
  | TypeError (msg : string)
  | KeyError (msg : string)
  | OverflowError (msg : string).

(** A call either returns a value or raises. *)
Inductive outcome (A : Type) : Type :=
  | Return (a : A)
  | Raise (e : PyExc).
Arguments Return {A} a.
Arguments Raise {A} e.

(** [isinstance(v, int)]: true for [int] and for its subclass [bool]. *)
Definition isinstance_int (v : PyVal) : bool :=
  match v with
  | PyInt _ | PyBool _ => true
  | _ => false
  end.

(** [isinstance(v, tuple)]. *)
Definition isinstance_tuple (v : PyVal) : bool :=
  match v with
  | PyTuple _ => true
  | _ => false
  end.

(** The integer value of an instance of [int] ([True] is 1, [False] is 0).
    Only consulted after [isinstance_int] succeeded. *)
Definition int_of (v : PyVal) : Z :=
  match v with
  | PyInt z => z
  | PyBool b => Z.b2z b
  | _ => 0
  end.

(** ** Text rendering: [repr] and [str] *)

(** [repr] of an [int]: its decimal numeral, with a minus sign when negative.
    The interpreter's configurable cap on the number of digits
    ([sys.set_int_max_str_digits]) is taken as switched off. *)
Definition int_repr (z : Z) : string :=
  NilZero.string_of_int (Z.to_int z).

(** [sep.join(parts)]. *)
Fixpoint str_join (sep : string) (parts : list string) : string :=
  match parts with
  | [] => EmptyString
  | [p] => p
  | p :: rest => p +:+ sep +:+ str_join sep rest
  end.

(** [repr(v)].  A tuple of one element is written with a trailing comma. *)
Fixpoint py_repr (v : PyVal) : string :=
  match v with
  | PyInt z => int_repr z
  | PyBool b => if b then "True"%string else "False"%string
  | PyNone => "None"%string
  | PyTuple items =>
      match items with
      | [x] => "(" +:+ py_repr x +:+ ",)"
      | _ => "(" +:+ str_join ", " (List.map py_repr items) +:+ ")"
      end
  | PyList items => "[" +:+ str_join ", " (List.map py_repr items) +:+ "]"
  | PyObj _ r => r
  end.

(** [str(v)]: differs from [repr] only on objects that define their own
    [__str__]; tuples, lists, integers, booleans and [None] do not. *)
Definition py_str (v : PyVal) : string :=
  match v with
  | PyObj s _ => s
  | _ => py_repr v
  end.

(** [s.replace(old, new)] for a one-character [old]. *)
Fixpoint str_replace_char (old : ascii) (new : string) (s : string) : string :=
  match s with
  | EmptyString => EmptyString
  | String a rest =>
      if Ascii.eqb a old then new +:+ str_replace_char old new rest
      else String a (str_replace_char old new rest)
  end.

(** A tuple of integers as a Python value. *)
Definition int_tuple (t : list Z) : PyVal := PyTuple (PyInt <$> t).

(** ** [create_database] *)

(** [range(stop)]: 0, 1, ..., stop - 1; empty when [stop <= 0]. *)
Definition range (stop : Z) : list Z := seqZ 0 stop.

(** One round of [itertools.product]:
    [result = [x+[y] for x in result for y in pool]]. *)
Definition product_step (result : list (list Z)) (pool : list Z) : list (list Z) :=
  x ← result; y ← pool; [x ++ [y]].

(** [itertools.product(pool, repeat=n)]: starting from [[[]]], one round per
    copy of the pool. *)
Definition itertools_product (pool : list Z) (repeat : nat) : list (list Z) :=
  foldl product_step [[]] (replicate repeat pool).

(** [sys.maxsize], the largest [Py_ssize_t], on a 64-bit interpreter. *)
Definition sys_maxsize : Z := 2 ^ 63 - 1.

(** The call [itertools.product(range(stop), repeat=repeat)] as CPython
    performs it.  [repeat] is converted to a [Py_ssize_t]; one index per
    copy of the pool must fit a C array of 8-byte entries; the pool is
    then copied into a tuple, which needs its length as a [Py_ssize_t].
    Each of these raises [OverflowError] before anything is enumerated.
    Running out of memory while copying a pool that is within these limits
    depends on the machine and is not modelled. *)
Definition itertools_product_call (stop repeat : Z) : outcome (list (list Z)) :=
  if (sys_maxsize <? repeat) || (repeat <? - sys_maxsize - 1) then
    Raise (OverflowError "Python int too large to convert to C ssize_t")
  else if repeat <? 0 then
    Raise (ValueError "repeat argument cannot be negative")
  else if sys_maxsize / 8 <? repeat then
    Raise (OverflowError "repeat argument too large")
  else if sys_maxsize <? stop then
    Raise (OverflowError "Python int too large to convert to C ssize_t")
  else
    Return (itertools_product (range stop) (Z.to_nat repeat)).

(** The body of the "multiply" branch:
    [result = 1; for val in inputs: result *= val]. *)
Definition multiply (inputs : list Z) : Z := foldl Z.mul 1 inputs.

(** The [for inputs in input_combinations] loop.  It threads the local
    dictionary [database] and stops at the first [raise]; the result is the
    dictionary as it stands when the loop is left, and the pending exception
    if there is one. *)
Fixpoint create_database_loop (operation : string)
    (input_combinations : list (list Z)) (database : gmap (list Z) Z)
    : gmap (list Z) Z * option PyExc :=
  match input_combinations with
  | [] => (database, None)
  | inputs :: rest =>
      if String.eqb operation "multiply" then
        create_database_loop operation rest (<[inputs := multiply inputs]> database)
      else
        (database, Some (ValueError ("Unsupported operation: " +:+ operation)))
  end.

(** [create_database] once both parameters were accepted: the local
    dictionary as it stands when the function is left, and the pending
    exception if there is one.  The call of [itertools.product] comes
    before the loop and can raise on its own. *)
Definition create_database_run (n d : Z) (operation : string)
    : gmap (list Z) Z * option PyExc :=
  let database : gmap (list Z) Z := ∅ in
  let max_input_value := 2 ^ d in
  match itertools_product_call max_input_value n with
  | Raise e => (database, Some e)
  | Return input_combinations =>
      create_database_loop operation input_combinations database
  end.

Definition create_database (num_inputs input_bit_depth : PyVal)
    (operation : string) : outcome (gmap (list Z) Z) :=
  if negb (isinstance_int num_inputs) || (int_of num_inputs <=? 0) then
    Raise (ValueError "num_inputs must be a positive integer.")
  else if negb (isinstance_int input_bit_depth) || (int_of input_bit_depth <=? 0) then
    Raise (ValueError "input_bit_depth must be a positive integer.")
  else
    match create_database_run (int_of num_inputs) (int_of input_bit_depth) operation with
    | (_, Some e) => Raise e
    | (database, None) => Return database
    end.

(** ** Key stringification ([generate_sample_database.py], [main]) *)

(** [{str(key): value for key, value in items}] over a sequence of items:
    a later item overwrites an earlier one with the same text key. *)
Definition stringify_items (items : list (list Z * Z)) : gmap string Z :=
  foldl (λ acc kv, <[py_str (int_tuple kv.1) := kv.2]> acc) ∅ items.

(** [database_string_keys], computed from [database_tuple_keys.items()]. *)
Definition database_string_keys (database_tuple_keys : gmap (list Z) Z)
    : gmap string Z :=
  stringify_items (map_to_list database_tuple_keys).

(** ** [query_database] and [simulate_neuron] *)

(** What [query_database] and [simulate_neuron] can be handed as
    [input_values].  [Plain v] is a value of [PyVal], rendered by [py_str]
    and [py_repr].  [TupleInstance] is any other instance of [tuple] or of a
    subclass of [tuple] (a namedtuple, a tuple holding an element whose
    [__repr__] raises, ...): it passes [isinstance(_, tuple)] and is then
    observed only through [str()] and [repr()], each of which returns a
    text or raises. *)
Inductive PyArg : Type :=
  | Plain (v : PyVal)
  | TupleInstance (str_result repr_result : outcome string).
Coercion Plain : PyVal >-> PyArg.

Definition arg_isinstance_tuple (a : PyArg) : bool :=
  match a with
  | Plain v => isinstance_tuple v
  | TupleInstance _ _ => true
  end.

(** [str(a)] and [repr(a)]. *)
Definition arg_str (a : PyArg) : outcome string :=
  match a with
  | Plain v => Return (py_str v)
  | TupleInstance s _ => s
  end.

Definition arg_repr (a : PyArg) : outcome string :=
  match a with
  | Plain v => Return (py_repr v)
  | TupleInstance _ r => r
  end.

(** The message of the [KeyError]; [shown] is the text the f-string puts
    for [{input_values}], which is [str(input_values)]. *)
Definition not_found_text (shown input_key input_key_no_space : string) : string :=
  "Input combination " +:+ shown +:+ " (searched as '"
    +:+ input_key +:+ "' and '" +:+ input_key_no_space
    +:+ "') not found in the database.".

Definition not_found_message (input_values : PyVal)
    (input_key input_key_no_space : string) : string :=
  "Input combination " +:+ py_str input_values +:+ " (searched as '"
    +:+ input_key +:+ "' and '" +:+ input_key_no_space
    +:+ "') not found in the database.".

Definition query_database {V : Type} (database : gmap string V)
    (input_values : PyArg) : outcome V :=
  if negb (arg_isinstance_tuple input_values) then
    Raise (TypeError "input_values must be a tuple.")
  else
    match arg_str input_values with
    | Raise e => Raise e
    | Return input_key =>
        match database !! input_key with
        | Some r => Return r
        | None =>
            match arg_repr input_values with
            | Raise e => Raise e
            | Return text =>
                let input_key_no_space := str_replace_char " " "" text in
                match database !! input_key_no_space with
                | Some r => Return r
                | None =>
                    Raise (KeyError
                             (not_found_text input_key input_key input_key_no_space))
                end
            end
        end
    end.

Definition simulate_neuron {V : Type} (database : gmap string V)
    (input_values : PyArg) : outcome V :=
  query_database database input_values.

(** ** The error kinds of the specification *)

Definition InvalidArgument (e : PyExc) : Prop :=
  e = ValueError "num_inputs must be a positive integer." ∨
  e = ValueError "input_bit_depth must be a positive integer.".

Definition UnsupportedOperation (e : PyExc) : Prop :=
  ∃ operation : string, e = ValueError ("Unsupported operation: " +:+ operation).

Definition TypeMismatch (e : PyExc) : Prop :=
  e = TypeError "input_values must be a tuple.".

Definition NotFound (e : PyExc) : Prop := ∃ msg : string, e = KeyError msg.

(** ** The input space and the arithmetic product (specification side) *)

(** The parameters are within what [itertools.product] accepts: one index
    per input fits the index array, and the number [2^d] of values of an
    input fits a [Py_ssize_t]. *)
Definition within_limits (n d : Z) : Prop :=
  n ≤ sys_maxsize / 8 ∧ 2 ^ d ≤ sys_maxsize.

(** [t] lies in [[0, 2^d)^n]: it has [n] elements, each in [0 .. 2^d - 1]. *)
Definition in_input_space (n d : Z) (t : list Z) : Prop :=
  Z.of_nat (length t) = n ∧ Forall (λ x, 0 ≤ x < 2 ^ d) t.

(** The product of the elements of a tuple. *)
Fixpoint arith_product (t : list Z) : Z :=
  match t with
  | [] => 1
  | x :: rest => x * arith_product rest
  end.

(** A positive integer of the host language: an [int] greater than 0, or
    the boolean [True], which Python counts as the integer 1. *)
Inductive positive_integer : PyVal → Prop :=
  | positive_int (z : Z) : 0 < z → positive_integer (PyInt z)
  | positive_true : positive_integer (PyBool true).

(** ** Text of integer tuples (specification side) *)

(** The characters a decimal numeral may contain. *)
Definition is_numeral_char (c : ascii) : bool :=
  existsb (Ascii.eqb c) ["-"; "0"; "1"; "2"; "3"; "4"; "5"; "6"; "7"; "8"; "9"]%char.

Fixpoint all_chars (p : ascii → bool) (s : string) : bool :=
  match s with
  | EmptyString => true
  | String c rest => p c && all_chars p rest
  end.

(** [s] begins with a numeral character. *)
Definition starts_numeral (s : string) : bool :=
  match s with
  | EmptyString => false
  | String c _ => is_numeral_char c
  end.

(** The rendering of a tuple of integers written out: the numerals joined by
    [sep] between parentheses, with the trailing comma of 1-tuples.
    [", "] gives the primary key form, [","] the form without spaces. *)
Definition tuple_text (sep : string) (t : list Z) : string :=
  match t with
  | [x] => "(" +:+ int_repr x +:+ ",)"
  | _ => "(" +:+ str_join sep (int_repr <$> t) +:+ ")"
  end.

(** A tuple of integers: an ordered, fixed-arity sequence of integers. *)
Definition is_int_tuple (v : PyVal) : Prop := ∃ t : list Z, v = int_tuple t.

(** ** Further notions used to describe the code *)

(** Lexicographic order on tuples: the first differing element decides; a
    proper prefix comes first. *)
Fixpoint lex_lt (a b : list Z) : Prop :=
  match a, b with
  | [], [] => False
  | [], _ :: _ => True
  | _ :: _, [] => False
  | x :: a', y :: b' => x < y ∨ (x = y ∧ lex_lt a' b')
  end.

(** A table whose keys were written without the space after each comma,
    e.g. "(0,1)": the key variation the second lookup of [query_database]
    is there for.  No function of the repository produces it. *)
Definition database_compact_keys (database_tuple_keys : gmap (list Z) Z)
    : gmap string Z :=
  kmap (tuple_text ",") database_tuple_keys.


(** ** Concrete runs *)

Example int_repr_samples :
  int_repr 0 = "0"%string ∧ int_repr 42 = "42"%string ∧ int_repr (-7) = "-7"%string.
Proof. repeat split. Qed.

Example py_str_samples :
  py_str (int_tuple []) = "()"%string ∧
  py_str (int_tuple [5]) = "(5,)"%string ∧
  py_str (int_tuple [0; 1]) = "(0, 1)"%string ∧
  py_str (int_tuple [3; 10; 2]) = "(3, 10, 2)"%string.
Proof. repeat split. Qed.

Example itertools_product_2_2 :
  itertools_product (range 2) 2 = [[0; 0]; [0; 1]; [1; 0]; [1; 1]].
Proof. reflexivity. Qed.

Example create_database_2_1 :
  create_database (PyInt 2) (PyInt 1) "multiply"
  = Return {[ [0; 0] := 0; [0; 1] := 0; [1; 0] := 0; [1; 1] := 1 ]}.
Proof. vm_compute. reflexivity. Qed.

(** ** The enumeration of input combinations *)

Section Product.
Implicit Types (pool : list Z) (t : list Z) (result : list (list Z)).

Lemma itertools_product_S pool n :
  itertools_product pool (S n) = product_step (itertools_product pool n) pool.
Proof.
  unfold itertools_product. by rewrite replicate_S_end, foldl_snoc.
Qed.

Lemma elem_of_product_step result pool t :
  t ∈ product_step result pool ↔ ∃ x y, t = x ++ [y] ∧ x ∈ result ∧ y ∈ pool.
Proof.
  unfold product_step. rewrite list_elem_of_bind. split.
  - intros (x & Ht & Hx). apply list_elem_of_bind in Ht as (y & Ht & Hy).
    apply list_elem_of_singleton in Ht. eauto.
  - intros (x & y & -> & Hx & Hy). exists x. split; [|done].
    apply list_elem_of_bind. exists y. split; [|done]. by apply list_elem_of_singleton.
Qed.

(** The combinations are exactly the tuples of the requested length over
    the pool. *)
Lemma elem_of_itertools_product pool n t :
  t ∈ itertools_product pool n ↔ length t = n ∧ Forall (λ x, x ∈ pool) t.
Proof.
  revert t. induction n as [|n IH]; intros t.
  - unfold itertools_product. simpl. rewrite list_elem_of_singleton. split.
    + by intros ->.
    + intros [Hlen _]. by destruct t.
  - rewrite itertools_product_S, elem_of_product_step. split.
    + intros (x & y & -> & Hx & Hy). apply IH in Hx as [Hlen Hall].
      rewrite length_app, Forall_app, Forall_singleton. simpl. split; [lia|done].
    + intros [Hlen Hall]. destruct (decide (t = [])) as [->|Hne]; [done|].
      destruct (exists_last Hne) as (x & y & ->).
      rewrite length_app in Hlen. simpl in Hlen.
      apply Forall_app in Hall as [Hx Hy]. rewrite Forall_singleton in Hy.
      exists x, y. split; [done|]. split; [|exact Hy]. apply IH. split; [lia|done].
Qed.




End Product.

(** ** Facts about the pieces of [create_database] *)

Lemma elem_of_range stop x : x ∈ range stop ↔ 0 ≤ x < stop.
Proof. unfold range. rewrite elem_of_seqZ. lia. Qed.



Lemma elem_of_input_combinations n d t :
  0 ≤ n →
  t ∈ itertools_product (range (2 ^ d)) (Z.to_nat n) ↔ in_input_space n d t.
Proof.
  intros Hn. rewrite elem_of_itertools_product. unfold in_input_space.
  rewrite !Forall_forall. setoid_rewrite elem_of_range.
  split; intros [Hlen Hall]; (split; [lia|done]).
Qed.

Lemma foldl_mul_arith_product a t : foldl Z.mul a t = a * arith_product t.
Proof.
  revert a. induction t as [|x t IH]; intros a; simpl; [lia|].
  rewrite IH. lia.
Qed.

Lemma multiply_arith_product t : multiply t = arith_product t.
Proof. unfold multiply. rewrite foldl_mul_arith_product. lia. Qed.


Section Loop.
Implicit Types (l : list (list Z)) (database : gmap (list Z) Z).

Lemma create_database_loop_multiply_exc l database :
  (create_database_loop "multiply" l database).2 = None.
Proof. revert database. induction l as [|t l IH]; intros database; simpl; auto. Qed.

Lemma create_database_loop_multiply_lookup l database t :
  (create_database_loop "multiply" l database).1 !! t
  = if decide (t ∈ l) then Some (multiply t) else database !! t.
Proof.
  revert database. induction l as [|u l IH]; intros database.
  - simpl. destruct (decide (t ∈ [])) as [H|_]; [|done].
    by apply not_elem_of_nil in H.
  - cbn [create_database_loop]. change (String.eqb "multiply" "multiply") with true.
    cbv iota. rewrite IH.
    destruct (decide (t ∈ l)) as [Hin|Hnin], (decide (t ∈ u :: l)) as [Hin'|Hnin'].
    + done.
    + exfalso. apply Hnin'. by right.
    + apply elem_of_cons in Hin' as [->|?]; [|done]. by rewrite lookup_insert_eq.
    + rewrite lookup_insert_ne; [done|]. intros ->. apply Hnin'. by left.
Qed.


(** With any other operation the first iteration raises, before the
    dictionary is touched. *)
Lemma create_database_loop_unsupported operation l database :
  operation ≠ "multiply"%string → l ≠ [] →
  create_database_loop operation l database
  = (database, Some (ValueError ("Unsupported operation: " +:+ operation))).
Proof.
  intros Hop Hl. destruct l as [|t l]; [done|]. simpl.
  apply String.eqb_neq in Hop. by rewrite Hop.
Qed.
End Loop.

Lemma input_combinations_nonempty n d :
  0 ≤ n → 0 ≤ d → itertools_product (range (2 ^ d)) (Z.to_nat n) ≠ [].
Proof.
  intros Hn Hd Hnil.
  assert (Hin : replicate (Z.to_nat n) 0 ∈ itertools_product (range (2 ^ d)) (Z.to_nat n)).
  { apply elem_of_input_combinations; [done|]. split.
    - rewrite length_replicate. lia.
    - apply Forall_replicate. split; [lia|]. by apply Z.pow_pos_nonneg. }
  rewrite Hnil in Hin. by apply not_elem_of_nil in Hin.
Qed.

Lemma positive_integer_check v :
  negb (isinstance_int v) || (int_of v <=? 0) = false ↔ positive_integer v.
Proof.
  split.
  - destruct v as [z|[]| | | |]; simpl; try done.
    + intros H%Z.leb_gt. by constructor.
    + intros _. constructor.
  - intros [z Hz|]; simpl; [|done]. by apply Z.leb_gt.
Qed.

Lemma not_positive_integer_check v :
  negb (isinstance_int v) || (int_of v <=? 0) = true ↔ ¬ positive_integer v.
Proof.
  rewrite <- positive_integer_check. by destruct (negb _ || _).
Qed.

(** Within the limits the call of [itertools.product] returns the
    enumeration; beyond them it raises [OverflowError]. *)
Lemma itertools_product_call_within n d :
  0 ≤ n → within_limits n d →
  itertools_product_call (2 ^ d) n
  = Return (itertools_product (range (2 ^ d)) (Z.to_nat n)).
Proof.
  intros Hn [Hrep Hpool]. unfold itertools_product_call.
  assert (sys_maxsize / 8 ≤ sys_maxsize) by (by vm_compute).
  assert (0 < sys_maxsize) by (by vm_compute).
  rewrite (proj2 (Z.ltb_ge sys_maxsize n)) by lia.
  rewrite (proj2 (Z.ltb_ge n (- sys_maxsize - 1))) by lia.
  rewrite (proj2 (Z.ltb_ge n 0)) by lia. cbn [orb].
  rewrite (proj2 (Z.ltb_ge (sys_maxsize / 8) n)) by lia.
  by rewrite (proj2 (Z.ltb_ge sys_maxsize (2 ^ d))) by lia.
Qed.

Lemma itertools_product_call_beyond n d :
  0 ≤ n → ¬ within_limits n d →
  ∃ msg, itertools_product_call (2 ^ d) n = Raise (OverflowError msg).
Proof.
  intros Hn Hout. unfold itertools_product_call.
  assert (0 < sys_maxsize) by (by vm_compute).
  destruct (Z.ltb_spec sys_maxsize n); [by eexists|].
  rewrite (proj2 (Z.ltb_ge n (- sys_maxsize - 1))) by lia.
  rewrite (proj2 (Z.ltb_ge n 0)) by lia. cbn [orb].
  destruct (Z.ltb_spec (sys_maxsize / 8) n); [by eexists|].
  destruct (Z.ltb_spec sys_maxsize (2 ^ d)); [by eexists|].
  destruct Hout. by split.
Qed.

Lemma create_database_run_within n d operation :
  0 ≤ n → within_limits n d →
  create_database_run n d operation
  = create_database_loop operation
      (itertools_product (range (2 ^ d)) (Z.to_nat n)) ∅.
Proof.
  intros Hn Hlim. unfold create_database_run.
  by rewrite itertools_product_call_within.
Qed.


Lemma create_database_run_lookup n d t :
  0 ≤ n → within_limits n d →
  (create_database_run n d "multiply").1 !! t
  = if decide (in_input_space n d t) then Some (multiply t) else None.
Proof.
  intros Hn Hlim. rewrite create_database_run_within by done.
  rewrite create_database_loop_multiply_lookup, lookup_empty.
  pose proof (elem_of_input_combinations n d t Hn) as Hiff.
  repeat case_decide; naive_solver.
Qed.


(** ** Table Builder: the claims *)











(** Whatever the parameters, no entry is in the local dictionary when
    [create_database] is left with an operation other than "multiply". *)
Lemma create_database_run_no_partial_table n d operation :
  operation ≠ "multiply"%string → (create_database_run n d operation).1 = ∅.
Proof.
  intros Hop. unfold create_database_run.
  destruct (itertools_product_call _ _) as [combos|e]; [|done].
  destruct combos as [|t combos]; [done|].
  by rewrite create_database_loop_unsupported.
Qed.

Lemma create_database_rejects (num_inputs input_bit_depth : PyVal) (operation : string) :
  ¬ positive_integer num_inputs ∨ ¬ positive_integer input_bit_depth →
  ∃ e, create_database num_inputs input_bit_depth operation = Raise e ∧
       InvalidArgument e.
Proof.
  intros Hbad. unfold create_database.
  destruct (negb (isinstance_int num_inputs) || (int_of num_inputs <=? 0)) eqn:E1.
  { eexists. split; [done|]. by left. }
  destruct (negb (isinstance_int input_bit_depth) || (int_of input_bit_depth <=? 0)) eqn:E2.
  { eexists. split; [done|]. by right. }
  apply positive_integer_check in E1, E2. naive_solver.
Qed.

(** C7. [create_database] raises an invalid-argument [ValueError] whenever
    [num_inputs] or [input_bit_depth] is not a positive integer, whatever
    the operation. *)
Theorem create_database_invalid_argument
    (num_inputs input_bit_depth : PyVal) (operation : string) :
  ¬ positive_integer num_inputs ∨ ¬ positive_integer input_bit_depth →
  ∃ e, create_database num_inputs input_bit_depth operation = Raise e ∧
       InvalidArgument e.
Proof. apply create_database_rejects. Qed.

Lemma create_database_invalid_argument_witness :
  ∃ e, create_database (PyInt 0) (PyInt 1) "multiply" = Raise e ∧
       InvalidArgument e.
Proof.
  apply (create_database_invalid_argument (PyInt 0) (PyInt 1) "multiply").
  left. inversion 1. lia.
Defined.

(** The cases the specification lists: 0, -1, a zero bit depth, and values
    that are not integers (a float, [None], a text, a list). *)
Example invalid_argument_cases :
  create_database (PyInt 0) (PyInt 1) "multiply"
    = Raise (ValueError "num_inputs must be a positive integer.") ∧
  create_database (PyInt (-1)) (PyInt 1) "multiply"
    = Raise (ValueError "num_inputs must be a positive integer.") ∧
  create_database (PyInt 2) (PyInt 0) "multiply"
    = Raise (ValueError "input_bit_depth must be a positive integer.") ∧
  create_database (PyObj "2.5" "2.5") (PyInt 1) "multiply"
    = Raise (ValueError "num_inputs must be a positive integer.") ∧
  create_database PyNone (PyInt 1) "multiply"
    = Raise (ValueError "num_inputs must be a positive integer.") ∧
  create_database (PyInt 2) (PyObj "1" "'1'") "multiply"
    = Raise (ValueError "input_bit_depth must be a positive integer.") ∧
  create_database (PyInt 2) (PyList [PyInt 1]) "multiply"
    = Raise (ValueError "input_bit_depth must be a positive integer.").
Proof. repeat split. Qed.

(** Booleans pass the [isinstance(_, int)] test: [True] is accepted as 1,
    [False] is rejected as 0. *)
Example create_database_booleans :
  create_database (PyBool true) (PyBool true) "multiply"
    = Return {[ [0] := 0; [1] := 1 ]} ∧
  create_database (PyBool false) (PyInt 1) "multiply"
    = Raise (ValueError "num_inputs must be a positive integer.").
Proof. split; vm_compute; reflexivity. Qed.

Lemma invalid_not_unsupported e : InvalidArgument e → ¬ UnsupportedOperation e.
Proof. intros [->| ->] [operation Hop]; discriminate. Qed.

(** C10. The parameters are checked before the operation is looked at: with
    an unrecognised operation and an invalid parameter, the exception is
    the invalid-argument one of the first offending parameter, and never
    the unsupported-operation one. *)
Theorem create_database_validation_order
    (num_inputs input_bit_depth : PyVal) (operation : string) :
  operation ≠ "multiply"%string →
  (¬ positive_integer num_inputs →
     create_database num_inputs input_bit_depth operation
     = Raise (ValueError "num_inputs must be a positive integer.")) ∧
  (positive_integer num_inputs → ¬ positive_integer input_bit_depth →
     create_database num_inputs input_bit_depth operation
     = Raise (ValueError "input_bit_depth must be a positive integer.")) ∧
  (¬ positive_integer num_inputs ∨ ¬ positive_integer input_bit_depth →
     ∀ e, create_database num_inputs input_bit_depth operation = Raise e →
          ¬ UnsupportedOperation e).
Proof.
  intros _. split; [|split].
  - intros H%not_positive_integer_check. unfold create_database. by rewrite H.
  - intros H1%positive_integer_check H2%not_positive_integer_check.
    unfold create_database. by rewrite H1, H2.
  - intros Hbad e He.
    destruct (create_database_rejects _ _ operation Hbad) as (e' & He' & Hinv).
    rewrite He in He'. injection He' as ->. by apply invalid_not_unsupported.
Qed.

Lemma create_database_validation_order_witness :
  create_database (PyInt 0) (PyInt 0) "add"
  = Raise (ValueError "num_inputs must be a positive integer.").
Proof.
  refine (proj1 (create_database_validation_order (PyInt 0) (PyInt 0) "add" _) _).
  - discriminate.
  - inversion 1. lia.
Defined.

(** ** The text of a tuple of integers *)

Section Text.
Implicit Types (s r : string) (t : list Z).

Lemma append_empty s : EmptyString +:+ s = s.
Proof. reflexivity. Qed.

Lemma append_String c s r : String c s +:+ r = String c (s +:+ r).
Proof. reflexivity. Qed.

Lemma append_assoc s1 s2 s3 : (s1 +:+ s2) +:+ s3 = s1 +:+ (s2 +:+ s3).
Proof.
  induction s1 as [|c s1 IH]; [done|]. by rewrite !append_String, IH.
Qed.

Lemma uint_text_numeral d :
  all_chars is_numeral_char (NilEmpty.string_of_uint d) = true.
Proof. induction d; simpl; auto. Qed.

Lemma int_repr_numeral z : all_chars is_numeral_char (int_repr z) = true.
Proof.
  unfold int_repr. destruct (Z.to_int z) as [d|d]; simpl.
  - destruct d; try apply uint_text_numeral; done.
  - destruct d; try apply uint_text_numeral; done.
Qed.

Lemma int_repr_nonempty z : int_repr z ≠ EmptyString.
Proof.
  unfold int_repr. destruct z as [|p|p]; simpl; [done| |done].
  pose proof (Unsigned.to_uint_nonnil p) as Hp.
  by destruct (Pos.to_uint p).
Qed.

Lemma int_repr_inj z z' : int_repr z = int_repr z' → z = z'.
Proof.
  unfold int_repr. intros E. apply DecimalZ.to_int_inj.
  assert (Hnn : ∀ x, Z.to_int x ≠ Decimal.Pos Decimal.Nil ∧
                     Z.to_int x ≠ Decimal.Neg Decimal.Nil).
  { intros [|p|p]; simpl; split; try done;
      intros [= H]; by apply Unsigned.to_uint_nonnil in H. }
  destruct (Hnn z) as [Hz1 Hz2], (Hnn z') as [Hz1' Hz2'].
  pose proof (NilZero.isi _ Hz1 Hz2) as H1.
  pose proof (NilZero.isi _ Hz1' Hz2') as H2.
  rewrite E in H1. congruence.
Qed.

(** A numeral followed by something that does not continue it can be
    split off in only one way. *)
Lemma numeral_split s1 s2 r1 r2 :
  all_chars is_numeral_char s1 = true → all_chars is_numeral_char s2 = true →
  starts_numeral r1 = false → starts_numeral r2 = false →
  s1 +:+ r1 = s2 +:+ r2 → s1 = s2 ∧ r1 = r2.
Proof.
  revert s2. induction s1 as [|c s1 IH]; intros [|c' s2];
    rewrite ?append_String, ?append_empty; simpl; intros H1 H2 Hr1 Hr2 E.
  - done.
  - subst r1. simpl in Hr1. apply andb_true_iff in H2 as [H2 _]. congruence.
  - subst r2. simpl in Hr2. apply andb_true_iff in H1 as [H1 _]. congruence.
  - apply andb_true_iff in H1 as [_ H1]. apply andb_true_iff in H2 as [_ H2].
    injection E as -> E. destruct (IH s2 H1 H2 Hr1 Hr2 E) as [-> ->]. done.
Qed.

Lemma int_repr_split z z' r1 r2 :
  starts_numeral r1 = false → starts_numeral r2 = false →
  int_repr z +:+ r1 = int_repr z' +:+ r2 → z = z' ∧ r1 = r2.
Proof.
  intros Hr1 Hr2 E.
  destruct (numeral_split _ _ _ _ (int_repr_numeral z) (int_repr_numeral z') Hr1 Hr2 E)
    as [Hz ->].
  split; [by apply int_repr_inj|done].
Qed.

(** [str] and [repr] of a tuple of integers are the comma-and-space text. *)
Lemma py_repr_tuple items :
  py_repr (PyTuple items)
  = match items with
    | [x] => "(" +:+ py_repr x +:+ ",)"
    | _ => "(" +:+ str_join ", " (List.map py_repr items) +:+ ")"
    end.
Proof. reflexivity. Qed.

Lemma py_repr_int_items t : List.map py_repr (PyInt <$> t) = int_repr <$> t.
Proof.
  induction t as [|x t IH]; [done|].
  change (py_repr (PyInt x) :: List.map py_repr (PyInt <$> t)
          = int_repr x :: (int_repr <$> t)).
  by rewrite IH.
Qed.

Lemma py_repr_int_tuple t : py_repr (int_tuple t) = tuple_text ", " t.
Proof.
  unfold int_tuple. rewrite py_repr_tuple.
  destruct t as [|x [|y t]]; [done|done|].
  by rewrite py_repr_int_items.
Qed.

Lemma py_str_int_tuple t : py_str (int_tuple t) = tuple_text ", " t.
Proof. apply py_repr_int_tuple. Qed.

Lemma join_close_inj t t' :
  t ≠ [] → t' ≠ [] →
  str_join ", " (int_repr <$> t) +:+ ")" = str_join ", " (int_repr <$> t') +:+ ")" →
  t = t'.
Proof.
  revert t'. induction t as [|x t IH]; intros t' Ht Ht'; [done|].
  destruct t' as [|x' t']; [done|].
  destruct t as [|y t], t' as [|y' t'];
    cbn [fmap list_fmap str_join];
    rewrite ?append_assoc, ?append_String, ?append_empty; intros E.
  - apply int_repr_split in E as [-> _]; done.
  - apply int_repr_split in E as [_ E]; done.
  - apply int_repr_split in E as [_ E]; done.
  - apply int_repr_split in E as [-> E]; [|done..].
    injection E as E. f_equal. by apply IH.
Qed.

Lemma int_repr_not_prefix z r s :
  starts_numeral s = false → s ≠ int_repr z +:+ r.
Proof.
  intros Hs ->. pose proof (int_repr_numeral z) as Hnum.
  pose proof (int_repr_nonempty z) as Hne.
  destruct (int_repr z) as [|c s']; [done|].
  rewrite append_String in Hs. simpl in Hs, Hnum.
  apply andb_true_iff in Hnum as [Hc _]. congruence.
Qed.

(** Distinct tuples of integers have distinct texts. *)
Lemma tuple_text_inj t t' : tuple_text ", " t = tuple_text ", " t' → t = t'.
Proof.
  destruct t as [|x [|y t]], t' as [|x' [|y' t']]; unfold tuple_text;
    cbn [fmap list_fmap str_join];
    rewrite ?append_assoc, ?append_String, ?append_empty; intros E.
  - done.
  - injection E as E. by apply int_repr_not_prefix in E.
  - injection E as E. by apply int_repr_not_prefix in E.
  - injection E as E. symmetry in E. by apply int_repr_not_prefix in E.
  - injection E as E. by apply int_repr_split in E as [-> _].
  - injection E as E. by apply int_repr_split in E as [_ E].
  - injection E as E. symmetry in E. by apply int_repr_not_prefix in E.
  - injection E as E. by apply int_repr_split in E as [_ E].
  - injection E as E. apply int_repr_split in E as [-> E]; [|done..].
    injection E as E. f_equal. by apply join_close_inj.
Qed.

Lemma py_str_int_tuple_inj t t' :
  py_str (int_tuple t) = py_str (int_tuple t') → t = t'.
Proof. rewrite !py_str_int_tuple. apply tuple_text_inj. Qed.

Global Instance py_str_int_tuple_Inj :
  Inj (=) (=) (λ t, py_str (int_tuple t)).
Proof. intros t t'. apply py_str_int_tuple_inj. Qed.

(** Numerals contain no space; removing the spaces of a tuple's text
    leaves the comma-only form. *)
Lemma str_replace_char_append old new s r :
  str_replace_char old new (s +:+ r)
  = str_replace_char old new s +:+ str_replace_char old new r.
Proof.
  induction s as [|c s IH]; [done|]. rewrite append_String. simpl.
  destruct (Ascii.eqb c old); by rewrite IH, ?append_assoc, ?append_String.
Qed.

Lemma remove_space_numeral s :
  all_chars is_numeral_char s = true → str_replace_char " " "" s = s.
Proof.
  induction s as [|c s IH]; simpl; [done|].
  intros [Hc Hs]%andb_true_iff. rewrite IH by done.
  destruct (Ascii.eqb_spec c " ") as [->|_]; [done|done].
Qed.

Lemma remove_space_join l :
  str_replace_char " " "" (str_join ", " (int_repr <$> l))
  = str_join "," (int_repr <$> l).
Proof.
  induction l as [|x [|y l] IH]; [done| |].
  - apply remove_space_numeral, int_repr_numeral.
  - cbn [fmap list_fmap str_join] in *.
    rewrite !str_replace_char_append, IH.
    by rewrite remove_space_numeral by apply int_repr_numeral.
Qed.

Lemma py_repr_int_tuple_no_space t :
  str_replace_char " " "" (py_repr (int_tuple t)) = tuple_text "," t.
Proof.
  rewrite py_repr_int_tuple. unfold tuple_text.
  destruct t as [|x [|y t]]; [done| |].
  - rewrite !str_replace_char_append.
    by rewrite (remove_space_numeral (int_repr x)) by apply int_repr_numeral.
  - by rewrite !str_replace_char_append, remove_space_join.
Qed.
End Text.

(** ** The text-keyed table *)

Section Stringify.
Implicit Types (items : list (list Z * Z)) (database : gmap (list Z) Z).

Local Abbreviation key_text := (λ t : list Z, py_str (int_tuple t)).

(** The comprehension as a map built from the re-keyed items, the last
    item first. *)
Lemma stringify_items_list_to_map items :
  stringify_items items
  = list_to_map (reverse (prod_map key_text id <$> items)).
Proof.
  unfold stringify_items.
  induction items as [|[t r] items IH] using rev_ind; [done|].
  rewrite foldl_snoc, IH, fmap_app. cbn [fmap list_fmap].
  by rewrite reverse_snoc.
Qed.

Lemma NoDup_item_texts items :
  NoDup items.*1 → NoDup (prod_map key_text id <$> items).*1.
Proof.
  intros Hnd.
  assert (Hfst : (prod_map key_text id <$> items).*1 = key_text <$> items.*1).
  { clear Hnd. induction items as [|[t r] items IH]; [done|].
    cbn [fmap list_fmap] in *. by rewrite IH. }
  rewrite Hfst. by apply (NoDup_fmap_2 key_text).
Qed.

(** The text-keyed table is the tuple-keyed one with every key replaced
    by its text. *)
Lemma database_string_keys_kmap database :
  database_string_keys database = kmap key_text database.
Proof.
  unfold database_string_keys, kmap. rewrite stringify_items_list_to_map.
  apply list_to_map_proper; [|apply reverse_Permutation].
  rewrite fmap_reverse, reverse_Permutation.
  apply NoDup_item_texts, NoDup_fst_map_to_list.
Qed.

(** The order in which the items are visited does not matter. *)
Lemma stringify_items_order items database :
  items ≡ₚ map_to_list database →
  stringify_items items = database_string_keys database.
Proof.
  intros Hperm. unfold database_string_keys.
  rewrite !stringify_items_list_to_map.
  assert (Hnd : NoDup items.*1).
  { rewrite Hperm. apply NoDup_fst_map_to_list. }
  apply list_to_map_proper.
  - rewrite fmap_reverse, reverse_Permutation. by apply NoDup_item_texts.
  - by rewrite !reverse_Permutation, Hperm.
Qed.

Lemma database_string_keys_lookup database t :
  database_string_keys database !! py_str (int_tuple t) = database !! t.
Proof.
  rewrite database_string_keys_kmap. apply (lookup_kmap key_text).
Qed.

Lemma database_string_keys_lookup_Some database key r :
  database_string_keys database !! key = Some r
  ↔ ∃ t, key = py_str (int_tuple t) ∧ database !! t = Some r.
Proof.
  rewrite database_string_keys_kmap. apply (lookup_kmap_Some key_text).
Qed.

Lemma database_string_keys_size database :
  size (database_string_keys database) = size database.
Proof.
  rewrite database_string_keys_kmap. unfold kmap.
  rewrite map_size_list_to_map
    by apply NoDup_item_texts, NoDup_fst_map_to_list.
  by rewrite length_fmap, length_map_to_list.
Qed.
End Stringify.

Example database_string_keys_2_1 :
  database_string_keys {[ [0; 0] := 0; [0; 1] := 0; [1; 0] := 0; [1; 1] := 1 ]}
  = {[ "(0, 0)"%string := 0; "(0, 1)"%string := 0;
       "(1, 0)"%string := 0; "(1, 1)"%string := 1 ]}.
Proof. vm_compute. reflexivity. Qed.

(** ** Table Codec and Query: the claims *)

Lemma query_database_tuple {V : Type} (database : gmap string V) items :
  query_database database (PyTuple items)
  = match database !! py_str (PyTuple items) with
    | Some r => Return r
    | None =>
        match database !! str_replace_char " " "" (py_repr (PyTuple items)) with
        | Some r => Return r
        | None =>
            Raise (KeyError
                     (not_found_message (PyTuple items) (py_str (PyTuple items))
                        (str_replace_char " " "" (py_repr (PyTuple items)))))
        end
    end.
Proof. reflexivity. Qed.




(** The scenario of the specification, run: (1,1) is found, (2,0) is not. *)
Example query_database_scenario :
  let table : gmap string Z :=
    {[ "(0, 0)"%string := 0; "(0, 1)"%string := 0;
       "(1, 0)"%string := 0; "(1, 1)"%string := 1 ]} in
  query_database table (int_tuple [1; 1]) = Return 1 ∧
  query_database table (int_tuple [2; 0])
  = Raise (KeyError "Input combination (2, 0) (searched as '(2, 0)' and '(2,0)') not found in the database.").
Proof. split; vm_compute; reflexivity. Qed.

(** C4. The two-stage lookup of [query_database] on a tuple: the value under
    the primary text (comma and space) when that key is present; otherwise
    the value under the text with the spaces removed when that key is
    present; otherwise a [KeyError] whose message shows the queried tuple
    and both texts.  For a tuple of integers the two texts are the
    comma-and-space and the comma-only renderings. *)
Theorem query_database_two_stage {V : Type} (database : gmap string V)
    (items : list PyVal) :
  let primary := py_str (PyTuple items) in
  let secondary := str_replace_char " " "" (py_repr (PyTuple items)) in
  (∀ r, database !! primary = Some r →
        query_database database (PyTuple items) = Return r) ∧
  (∀ r, database !! primary = None → database !! secondary = Some r →
        query_database database (PyTuple items) = Return r) ∧
  (database !! primary = None → database !! secondary = None →
     NotFound
       (KeyError ("Input combination " +:+ py_str (PyTuple items)
                    +:+ " (searched as '" +:+ primary +:+ "' and '" +:+ secondary
                    +:+ "') not found in the database.")) ∧
     query_database database (PyTuple items)
     = Raise (KeyError ("Input combination " +:+ py_str (PyTuple items)
                          +:+ " (searched as '" +:+ primary +:+ "' and '" +:+ secondary
                          +:+ "') not found in the database."))) ∧
  (∀ t : list Z, items = PyInt <$> t →
     primary = tuple_text ", " t ∧ secondary = tuple_text "," t).
Proof.
  intros primary secondary. rewrite query_database_tuple.
  fold primary secondary. split; [|split; [|split]].
  - by intros r ->.
  - by intros r -> ->.
  - intros -> ->. split; [by eexists|done].
  - intros t ->. split.
    + apply py_str_int_tuple.
    + apply py_repr_int_tuple_no_space.
Qed.

Lemma query_database_two_stage_witness :
  query_database ({[ "(1,1)"%string := 1 ]} : gmap string Z) (PyTuple [PyInt 1; PyInt 1])
  = Return 1.
Proof.
  refine (proj1 (proj2 (query_database_two_stage
            ({[ "(1,1)"%string := 1 ]} : gmap string Z) [PyInt 1; PyInt 1])) 1 _ _).
  - vm_compute. reflexivity.
  - vm_compute. reflexivity.
Defined.

(** C5, as stated, fails: a tuple whose element is not an integer is not
    rejected with a [TypeError]; it reaches the lookup and can be found. *)
Lemma query_database_type_check_counterexample :
  ¬ (∀ (database : gmap string Z) (input_values : PyVal),
       ¬ is_int_tuple input_values →
       ∃ e, query_database database input_values = Raise e ∧ TypeMismatch e).
Proof.
  intros H.
  destruct (H {[ "(None,)"%string := 7 ]} (PyTuple [PyNone])) as (e & He & _).
  - intros [[|x [|y t]] Ht]; discriminate.
  - vm_compute in He. discriminate.
Qed.

(** C5, amended. [query_database] raises the [TypeError] whenever
    [input_values] is not an instance of [tuple].  The elements are not
    checked: a tuple is never rejected by this check, whatever it holds;
    on an instance of [tuple] such an error can only be one raised by the
    object's own [str()] or [repr()]. *)
Theorem query_database_type_check {V : Type} (database : gmap string V)
    (input_values : PyArg) :
  (arg_isinstance_tuple input_values = false →
     query_database database input_values
     = Raise (TypeError "input_values must be a tuple.")) ∧
  (∀ items : list PyVal,
     ¬ ∃ e, query_database database (PyTuple items) = Raise e ∧ TypeMismatch e) ∧
  (arg_isinstance_tuple input_values = true →
     ∀ e, query_database database input_values = Raise e → TypeMismatch e →
          arg_str input_values = Raise e ∨ arg_repr input_values = Raise e).
Proof.
  split; [|split].
  - intros Hnt. unfold query_database. by rewrite Hnt.
  - intros items (e & He & ->). rewrite query_database_tuple in He.
    repeat (destruct (_ !! _) in He); discriminate.
  - intros Ht e He ->. unfold query_database in He. rewrite Ht in He. simpl in He.
    destruct (arg_str input_values) as [key|e1]; [|left; congruence].
    destruct (database !! key); [done|].
    destruct (arg_repr input_values) as [text|e2]; [|right; congruence].
    destruct (database !! _); done.
Qed.

Lemma query_database_type_check_witness :
  query_database ({[ "(0, 1)"%string := 0 ]} : gmap string Z) (PyList [PyInt 0; PyInt 1])
  = Raise (TypeError "input_values must be a tuple.").
Proof.
  exact (proj1 (query_database_type_check
                  ({[ "(0, 1)"%string := 0 ]} : gmap string Z)
                  (PyList [PyInt 0; PyInt 1]))
               eq_refl).
Defined.

(** A list of integers is an ordered sequence of integers but not a tuple:
    it is rejected.  A tuple holding [None] or a text is looked up. *)
Example type_check_cases :
  query_database ({[ "(0, 1)"%string := 0 ]} : gmap string Z) (PyList [PyInt 0; PyInt 1])
    = Raise (TypeError "input_values must be a tuple.") ∧
  query_database ({[ "(0, 1)"%string := 0 ]} : gmap string Z) (PyInt 0)
    = Raise (TypeError "input_values must be a tuple.") ∧
  query_database ({[ "(None,)"%string := 7 ]} : gmap string Z) (PyTuple [PyNone])
    = Return 7 ∧
  query_database ({[ "('a', 2.5)"%string := 7 ]} : gmap string Z)
    (PyTuple [PyObj "a" "'a'"; PyObj "2.5" "2.5"])
    = Return 7.
Proof. repeat split; vm_compute; reflexivity. Qed.

(** Instances of [tuple] that are not plain tuples of printable values: a
    namedtuple is looked up under its own text; an exception raised while
    the key is rendered leaves [query_database] as it is. *)
Example tuple_instance_cases :
  query_database ({[ "(1, 1)"%string := 1 ]} : gmap string Z)
    (TupleInstance (Return "P(x=1, y=1)") (Return "P(x=1, y=1)"))
    = Raise (KeyError "Input combination P(x=1, y=1) (searched as 'P(x=1, y=1)' and 'P(x=1,y=1)') not found in the database.") ∧
  query_database ({[ "(1, 1)"%string := 1 ]} : gmap string Z)
    (TupleInstance (Raise (ValueError "no text")) (Raise (ValueError "no text")))
    = Raise (ValueError "no text").
Proof. split; vm_compute; reflexivity. Qed.

(** C8. [simulate_neuron] passes straight through to [query_database]: the
    same value when the query returns, the same exception when it raises. *)
Theorem simulate_neuron_pass_through {V : Type} (database : gmap string V)
    (input_values : PyArg) :
  simulate_neuron database input_values = query_database database input_values.
Proof. reflexivity. Qed.

(** C9. Stringification loses nothing: distinct tuples of integers (so in
    particular of non-negative integers) have distinct texts; hence the
    text-keyed table has as many entries as the tuple-keyed table, each text
    key carries the value of its tuple, and two keys of the table never
    share a text. *)
Theorem stringification_lossless :
  (∀ t t' : list Z, py_str (int_tuple t) = py_str (int_tuple t') → t = t') ∧
  (∀ database : gmap (list Z) Z,
     size (database_string_keys database) = size database ∧
     (∀ t, database_string_keys database !! py_str (int_tuple t) = database !! t) ∧
     (∀ t t', t ∈ dom database → t' ∈ dom database →
              py_str (int_tuple t) = py_str (int_tuple t') → t = t')).
Proof.
  split; [apply py_str_int_tuple_inj|].
  intros database. split; [apply database_string_keys_size|].
  split; [apply database_string_keys_lookup|].
  intros t t' _ _. apply py_str_int_tuple_inj.
Qed.

Lemma stringification_lossless_witness : [0; 1] = [0; 1] :> list Z.
Proof.
  exact (proj1 stringification_lossless [0; 1] [0; 1] eq_refl).
Defined.


(** * Further properties of the code *)

(** ** [create_database]: when it returns, and what the table holds *)



(** Everything a returned table tells about the call that built it. *)
Lemma create_database_returns n d operation database :
  create_database (PyInt n) (PyInt d) operation = Return database →
  0 < n ∧ 0 < d ∧ operation = "multiply"%string ∧
  ∀ t, database !! t
       = if decide (in_input_space n d t) then Some (arith_product t) else None.
Proof.
  unfold create_database. simpl.
  destruct (Z.leb_spec n 0) as [|Hn]; [done|].
  destruct (Z.leb_spec d 0) as [|Hd]; [done|]. simpl.
  destruct (decide (n ≤ sys_maxsize / 8 ∧ 2 ^ d ≤ sys_maxsize)) as [Hlim|Hout].
  - destruct (decide (operation = "multiply"%string)) as [->|Hop].
    + pose proof (create_database_loop_multiply_exc
        (itertools_product (range (2 ^ d)) (Z.to_nat n)) ∅) as Hexc.
      pose proof (create_database_run_lookup n d) as Hlk.
      rewrite create_database_run_within in * by (done || lia).
      destruct (create_database_loop _ _ _) as [db exc]. simpl in *. subst exc.
      intros [= <-]. repeat split; try done.
      intros t. rewrite Hlk by (done || lia). by rewrite multiply_arith_product.
    + rewrite create_database_run_within by (done || lia).
      rewrite create_database_loop_unsupported; [done|done|].
      apply input_combinations_nonempty; lia.
  - unfold create_database_run.
    destruct (itertools_product_call_beyond n d) as [msg ->]; [lia|done|done].
Qed.



Lemma arith_product_bounds m t :
  Forall (λ x, 0 ≤ x ≤ m) t → 0 ≤ arith_product t ≤ m ^ Z.of_nat (length t).
Proof.
  induction 1 as [|x t Hx _ IH]; [simpl; lia|].
  cbn [arith_product length]. rewrite Nat2Z.inj_succ, Z.pow_succ_r by lia. nia.
Qed.

Lemma arith_product_replicate k x :
  arith_product (replicate k x) = x ^ Z.of_nat k.
Proof.
  induction k as [|k IH]; [done|].
  cbn [replicate arith_product]. rewrite IH, Nat2Z.inj_succ, Z.pow_succ_r by lia. done.
Qed.

(** X2. Every value of a returned table lies between 0 and
    [(2^d - 1)^n], and the tuple whose elements are all [2^d - 1] reaches
    that bound. *)
Theorem create_database_value_bounds (n d : Z) (operation : string)
    (database : gmap (list Z) Z) :
  create_database (PyInt n) (PyInt d) operation = Return database →
  (∀ t r, database !! t = Some r → 0 ≤ r ≤ (2 ^ d - 1) ^ n) ∧
  database !! replicate (Z.to_nat n) (2 ^ d - 1) = Some ((2 ^ d - 1) ^ n).
Proof.
  intros (Hn & Hd & _ & Hlk)%create_database_returns.
  assert (Hpow : 0 < 2 ^ d) by (apply Z.pow_pos_nonneg; lia).
  split.
  - intros t r. rewrite Hlk. case_decide as Ht; [|done]. intros [= <-].
    destruct Ht as [Hlen Hall]. rewrite <- Hlen. apply arith_product_bounds.
    eapply Forall_impl; [done|]. simpl. lia.
  - rewrite Hlk, decide_True.
    + by rewrite arith_product_replicate, Z2Nat.id by lia.
    + split; [rewrite length_replicate; lia|]. apply Forall_replicate. lia.
Qed.

Lemma create_database_value_bounds_witness :
  (∀ t r, ({[ [0; 0] := 0; [0; 1] := 0; [1; 0] := 0; [1; 1] := 1 ]}
             : gmap (list Z) Z) !! t = Some r → 0 ≤ r ≤ (2 ^ 1 - 1) ^ 2) ∧
  ({[ [0; 0] := 0; [0; 1] := 0; [1; 0] := 0; [1; 1] := 1 ]} : gmap (list Z) Z)
    !! replicate (Z.to_nat 2) (2 ^ 1 - 1) = Some ((2 ^ 1 - 1) ^ 2).
Proof.
  apply (create_database_value_bounds 2 1 "multiply"). vm_compute. reflexivity.
Defined.

Lemma arith_product_eq_0 t : arith_product t = 0 ↔ 0 ∈ t.
Proof.
  induction t as [|x t IH]; simpl.
  - split; [lia|by intros ?%not_elem_of_nil].
  - rewrite elem_of_cons, <- IH. lia.
Qed.

(** X3. In a returned table the entries with value 0 are exactly the tuples
    of the input space that contain a 0. *)
Theorem create_database_zero_entries (n d : Z) (operation : string)
    (database : gmap (list Z) Z) (t : list Z) :
  create_database (PyInt n) (PyInt d) operation = Return database →
  database !! t = Some 0 ↔ in_input_space n d t ∧ 0 ∈ t.
Proof.
  intros (_ & _ & _ & Hlk)%create_database_returns. rewrite Hlk.
  case_decide as Ht.
  - rewrite <- arith_product_eq_0. split; [intros [= ->]; done|].
    by intros [_ ->].
  - split; [done|]. by intros [? _].
Qed.

Lemma create_database_zero_entries_witness :
  ({[ [0; 0] := 0; [0; 1] := 0; [1; 0] := 0; [1; 1] := 1 ]} : gmap (list Z) Z)
    !! [0; 1] = Some 0
  ↔ in_input_space 2 1 [0; 1] ∧ 0 ∈ [0; 1].
Proof.
  apply (create_database_zero_entries 2 1 "multiply"). vm_compute. reflexivity.
Defined.

Lemma arith_product_Permutation t t' :
  t ≡ₚ t' → arith_product t = arith_product t'.
Proof. induction 1; simpl; lia. Qed.

Lemma in_input_space_Permutation n d t t' :
  t ≡ₚ t' → in_input_space n d t ↔ in_input_space n d t'.
Proof. intros Hp. unfold in_input_space. by rewrite Hp. Qed.

(** X4. A returned table does not depend on the order of the inputs: two
    tuples that are rearrangements of each other have the same entry. *)
Theorem create_database_rearranged (n d : Z) (operation : string)
    (database : gmap (list Z) Z) (t t' : list Z) :
  create_database (PyInt n) (PyInt d) operation = Return database →
  t ≡ₚ t' → database !! t = database !! t'.
Proof.
  intros (_ & _ & _ & Hlk)%create_database_returns Hp. rewrite !Hlk.
  pose proof (in_input_space_Permutation n d t t' Hp) as Hiff.
  rewrite (arith_product_Permutation t t' Hp).
  repeat case_decide; naive_solver.
Qed.

Lemma create_database_rearranged_witness :
  ({[ [0; 0] := 0; [0; 1] := 0; [1; 0] := 0; [1; 1] := 1 ]} : gmap (list Z) Z)
    !! [0; 1]
  = ({[ [0; 0] := 0; [0; 1] := 0; [1; 0] := 0; [1; 1] := 1 ]} : gmap (list Z) Z)
      !! [1; 0].
Proof.
  apply (create_database_rearranged 2 1 "multiply").
  - vm_compute. reflexivity.
  - apply perm_swap.
Defined.

(** X5. Raising the bit depth only adds entries: the table for a smaller
    bit depth is contained, values included, in the table for a larger one
    with the same number of inputs. *)
Theorem create_database_depth_mono (n d d' : Z) (operation operation' : string)
    (database database' : gmap (list Z) Z) :
  create_database (PyInt n) (PyInt d) operation = Return database →
  create_database (PyInt n) (PyInt d') operation' = Return database' →
  d ≤ d' → database ⊆ database'.
Proof.
  intros (_ & Hd & _ & Hlk)%create_database_returns
         (_ & _ & _ & Hlk')%create_database_returns Hle.
  apply map_subseteq_spec. intros t r. rewrite Hlk, Hlk'.
  case_decide as Ht; [|done]. intros <-.
  rewrite decide_True; [done|]. destruct Ht as [Hlen Hall]. split; [done|].
  eapply Forall_impl; [done|]. simpl. intros x Hx.
  pose proof (Z.pow_le_mono_r 2 d d'). lia.
Qed.

Lemma create_database_depth_mono_witness :
  ({[ [0] := 0; [1] := 1 ]} : gmap (list Z) Z)
  ⊆ ({[ [0] := 0; [1] := 1; [2] := 2; [3] := 3 ]} : gmap (list Z) Z).
Proof.
  apply (create_database_depth_mono 1 1 2 "multiply" "multiply").
  - vm_compute. reflexivity.
  - vm_compute. reflexivity.
  - lia.
Defined.

Lemma arith_product_app t t' :
  arith_product (t ++ t') = arith_product t * arith_product t'.
Proof. induction t as [|x t IH]; simpl; [lia|]. rewrite IH. lia. Qed.

(** X6. Tables of the same bit depth compose: the entry of a concatenated
    tuple in the table for [n + m] inputs is the product of the entries of
    its two parts in the tables for [n] and for [m] inputs. *)
Theorem create_database_concat (n m d : Z) (operation : string)
    (database_n database_m database_nm : gmap (list Z) Z) (t t' : list Z) (r r' : Z) :
  create_database (PyInt n) (PyInt d) operation = Return database_n →
  create_database (PyInt m) (PyInt d) operation = Return database_m →
  create_database (PyInt (n + m)) (PyInt d) operation = Return database_nm →
  database_n !! t = Some r → database_m !! t' = Some r' →
  database_nm !! (t ++ t') = Some (r * r').
Proof.
  intros (_ & _ & _ & Hn)%create_database_returns
         (_ & _ & _ & Hm)%create_database_returns
         (_ & _ & _ & Hnm)%create_database_returns.
  rewrite Hn, Hm, Hnm.
  case_decide as Ht; [|done]. intros [= <-].
  case_decide as Ht'; [|done]. intros [= <-].
  destruct Ht as [Hlen Hall], Ht' as [Hlen' Hall'].
  rewrite decide_True, arith_product_app; [done|]. split.
  - rewrite length_app. lia.
  - by apply Forall_app.
Qed.

Lemma create_database_concat_witness :
  ({[ [0; 0] := 0; [0; 1] := 0; [1; 0] := 0; [1; 1] := 1 ]} : gmap (list Z) Z)
    !! ([1] ++ [1]) = Some (1 * 1).
Proof.
  apply (create_database_concat 1 1 1 "multiply"
           {[ [0] := 0; [1] := 1 ]} {[ [0] := 0; [1] := 1 ]}).
  - vm_compute. reflexivity.
  - vm_compute. reflexivity.
  - vm_compute. reflexivity.
  - vm_compute. reflexivity.
  - vm_compute. reflexivity.
Defined.

(** ** The order of the input combinations *)

Lemma lex_lt_snoc_same a x y : x < y → lex_lt (a ++ [x]) (a ++ [y]).
Proof. intros Hxy. induction a as [|c a IH]; simpl; [by left|by right]. Qed.

Lemma lex_lt_snoc a b x y :
  length a = length b → lex_lt a b → lex_lt (a ++ [x]) (b ++ [y]).
Proof.
  revert b. induction a as [|c a IH]; intros [|c' b]; simpl; try done.
  intros [= Hlen] [Hlt|[-> Hlt]]; [by left|right]. split; [done|]. by apply IH.
Qed.

Lemma StronglySorted_range stop : StronglySorted Z.lt (range stop).
Proof.
  unfold range. destruct (decide (stop ≤ 0)) as [Hle|Hgt].
  { rewrite seqZ_nil by done. constructor. }
  rewrite <- (Z2Nat.id stop) by lia.
  induction (Z.to_nat stop) as [|k IH]; [constructor|].
  rewrite seqZ_S. apply StronglySorted_app_2; [|done|repeat constructor].
  intros x y Hx%elem_of_seqZ ->%list_elem_of_singleton. lia.
Qed.

Lemma StronglySorted_product_step result pool n :
  StronglySorted lex_lt result → Forall (λ x, length x = n) result →
  StronglySorted Z.lt pool →
  StronglySorted lex_lt (product_step result pool).
Proof.
  intros Hres Hlen Hpool.
  induction Hres as [|x result Hres IH Hx]; [constructor|].
  apply Forall_cons in Hlen as [Hlx Hlen].
  change (product_step (x :: result) pool)
    with ((y ← pool; [x ++ [y]]) ++ product_step result pool).
  apply StronglySorted_app_2; [| |by apply IH].
  - intros a b (y & ->%list_elem_of_singleton & _)%list_elem_of_bind
           (x' & y' & -> & Hx' & _)%elem_of_product_step.
    rewrite Forall_forall in Hx, Hlen. apply lex_lt_snoc; [|by apply Hx].
    rewrite Hlx. symmetry. by apply Hlen.
  - clear -Hpool. induction Hpool as [|y pool Hpool IH Hy]; [constructor|].
    change (y0 ← y :: pool; [x ++ [y0]])
      with ((x ++ [y]) :: (y0 ← pool; [x ++ [y0]])).
    constructor; [done|]. apply Forall_forall.
    intros a (y' & ->%list_elem_of_singleton & Hy')%list_elem_of_bind.
    rewrite Forall_forall in Hy. by apply lex_lt_snoc_same, Hy.
Qed.

(** X7. The input combinations are enumerated in strictly increasing
    lexicographic order: every combination is lexicographically smaller
    than all those generated after it. *)
Theorem itertools_product_lex_sorted (stop : Z) (repeat : nat) :
  StronglySorted lex_lt (itertools_product (range stop) repeat).
Proof.
  induction repeat as [|n IH]; [repeat constructor|].
  rewrite itertools_product_S.
  apply (StronglySorted_product_step _ _ n); [done| |apply StronglySorted_range].
  apply Forall_forall. by intros t [Hlen _]%elem_of_itertools_product.
Qed.

(** ** Texts with and without spaces *)

Section CompactText.
Implicit Types (s r : string) (t : list Z).

Lemma remove_space_idem s :
  str_replace_char " " "" (str_replace_char " " "" s) = str_replace_char " " "" s.
Proof.
  induction s as [|c s IH]; [done|]. simpl.
  destruct (Ascii.eqb c " ") eqn:E; rewrite ?append_empty; [done|].
  simpl. by rewrite E, IH.
Qed.

Lemma join_close_comma_inj t t' :
  t ≠ [] → t' ≠ [] →
  str_join "," (int_repr <$> t) +:+ ")" = str_join "," (int_repr <$> t') +:+ ")" →
  t = t'.
Proof.
  revert t'. induction t as [|x t IH]; intros t' Ht Ht'; [done|].
  destruct t' as [|x' t']; [done|].
  destruct t as [|y t], t' as [|y' t'];
    cbn [fmap list_fmap str_join];
    rewrite ?append_assoc, ?append_String, ?append_empty; intros E.
  - apply int_repr_split in E as [-> _]; done.
  - apply int_repr_split in E as [_ E]; done.
  - apply int_repr_split in E as [_ E]; done.
  - apply int_repr_split in E as [-> E]; [|done..].
    injection E as E. f_equal. by apply IH.
Qed.

(** The comma-only text is injective as well. *)
Lemma tuple_text_comma_inj t t' : tuple_text "," t = tuple_text "," t' → t = t'.
Proof.
  destruct t as [|x [|y t]], t' as [|x' [|y' t']]; unfold tuple_text;
    cbn [fmap list_fmap str_join];
    rewrite ?append_assoc, ?append_String, ?append_empty; intros E.
  - done.
  - injection E as E. by apply int_repr_not_prefix in E.
  - injection E as E. by apply int_repr_not_prefix in E.
  - injection E as E. symmetry in E. by apply int_repr_not_prefix in E.
  - injection E as E. by apply int_repr_split in E as [-> _].
  - injection E as E. apply int_repr_split in E as [_ E]; [|done..].
    injection E as E.
    destruct t' as [|z' t']; cbn [fmap list_fmap] in E;
      rewrite ?append_assoc in E; by apply int_repr_not_prefix in E.
  - injection E as E. symmetry in E. by apply int_repr_not_prefix in E.
  - injection E as E. apply int_repr_split in E as [_ E]; [|done..].
    injection E as E. symmetry in E.
    destruct t as [|z t]; cbn [fmap list_fmap] in E;
      rewrite ?append_assoc in E; by apply int_repr_not_prefix in E.
  - injection E as E. apply int_repr_split in E as [-> E]; [|done..].
    injection E as E. f_equal. by apply join_close_comma_inj.
Qed.

Global Instance tuple_text_comma_Inj : Inj (=) (=) (tuple_text ",").
Proof. intros t t'. apply tuple_text_comma_inj. Qed.

Lemma tuple_text_comma_no_space t :
  str_replace_char " " "" (tuple_text "," t) = tuple_text "," t.
Proof.
  rewrite <- (py_repr_int_tuple_no_space t). apply remove_space_idem.
Qed.

(** A comma-only text and a comma-and-space text are equal only when they
    are texts of the same tuple. *)
Lemma tuple_text_cross t t' : tuple_text "," t = tuple_text ", " t' → t = t'.
Proof.
  intros E. apply tuple_text_comma_inj.
  rewrite <- (py_repr_int_tuple_no_space t'), py_repr_int_tuple, <- E.
  symmetry. apply tuple_text_comma_no_space.
Qed.
End CompactText.

(** ** The text-keyed table, and queries against it *)

(** X8. The stringification depends only on the entries of the table, not
    on the order in which the dictionary yields them: for any sequence of
    items with distinct tuple keys, the comprehension gives the text-keyed
    form of the table holding those items. *)
Theorem stringify_items_any_order (items : list (list Z * Z)) :
  NoDup items.*1 →
  stringify_items items = database_string_keys (list_to_map items).
Proof.
  intros Hnd. apply stringify_items_order.
  symmetry. by apply map_to_list_to_map.
Qed.

Lemma stringify_items_any_order_witness :
  stringify_items [([1; 0], 0); ([0; 1], 0); ([1; 1], 1)]
  = database_string_keys (list_to_map [([1; 0], 0); ([0; 1], 0); ([1; 1], 1)]).
Proof.
  apply (stringify_items_any_order [([1; 0], 0); ([0; 1], 0); ([1; 1], 1)]).
  repeat constructor; set_solver.
Defined.

(** X9. The text-keyed table has no key of its own: a text is a key with
    value [r] exactly when it is the comma-and-space text of a tuple that
    the tuple-keyed table maps to [r]. *)
Theorem database_string_keys_entries (database : gmap (list Z) Z)
    (key : string) (r : Z) :
  database_string_keys database !! key = Some r
  ↔ ∃ t, key = tuple_text ", " t ∧ database !! t = Some r.
Proof.
  rewrite database_string_keys_lookup_Some.
  by setoid_rewrite py_str_int_tuple.
Qed.

(** Querying a stringified table with a tuple of integers. *)
Lemma query_stringified (database : gmap (list Z) Z) (t : list Z) :
  query_database (database_string_keys database) (int_tuple t)
  = match database !! t with
    | Some r => Return r
    | None =>
        Raise (KeyError (not_found_message (int_tuple t)
                           (tuple_text ", " t) (tuple_text "," t)))
    end.
Proof.
  unfold int_tuple. rewrite query_database_tuple. fold (int_tuple t).
  rewrite database_string_keys_lookup, py_repr_int_tuple_no_space, py_str_int_tuple.
  destruct (database !! t) as [r|] eqn:E; [done|].
  destruct (database_string_keys database !! tuple_text "," t) as [r|] eqn:E2; [|done].
  apply database_string_keys_lookup_Some in E2 as (t' & Heq & Ht').
  rewrite py_str_int_tuple in Heq. apply tuple_text_cross in Heq as ->. congruence.
Qed.

(** X10. Against the stringified form of any tuple-keyed table, a query with
    a tuple of integers returns exactly the entry of that tuple and raises
    the [KeyError] when the tuple has none: the second lookup never answers
    with the entry of a different tuple. *)
Theorem query_database_string_keys_exact (database : gmap (list Z) Z) (t : list Z) :
  query_database (database_string_keys database) (int_tuple t)
  = match database !! t with
    | Some r => Return r
    | None =>
        Raise (KeyError (not_found_message (int_tuple t)
                           (tuple_text ", " t) (tuple_text "," t)))
    end.
Proof. apply query_stringified. Qed.

(** X11. On the stringified form of a table returned by [create_database],
    [simulate_neuron] returns the product for every tuple of the input space
    and raises the [KeyError] for every other tuple of integers (an element
    out of range, or the wrong number of elements). *)
Theorem simulate_neuron_built_table (n d : Z) (operation : string)
    (database : gmap (list Z) Z) (t : list Z) :
  create_database (PyInt n) (PyInt d) operation = Return database →
  simulate_neuron (database_string_keys database) (int_tuple t)
  = if decide (in_input_space n d t) then Return (arith_product t)
    else Raise (KeyError (not_found_message (int_tuple t)
                            (tuple_text ", " t) (tuple_text "," t))).
Proof.
  intros (_ & _ & _ & Hlk)%create_database_returns.
  unfold simulate_neuron. rewrite query_stringified, Hlk. by case_decide.
Qed.

Lemma simulate_neuron_built_table_witness :
  simulate_neuron
    (database_string_keys {[ [0; 0] := 0; [0; 1] := 0; [1; 0] := 0; [1; 1] := 1 ]})
    (int_tuple [2; 0])
  = if decide (in_input_space 2 1 [2; 0]) then Return (arith_product [2; 0])
    else Raise (KeyError (not_found_message (int_tuple [2; 0])
                            (tuple_text ", " [2; 0]) (tuple_text "," [2; 0]))).
Proof.
  apply (simulate_neuron_built_table 2 1 "multiply"). vm_compute. reflexivity.
Defined.

(** X12. For a tuple of fewer than two integers the text without spaces is
    the primary text itself, so the second lookup cannot find anything the
    first one missed: the query succeeds exactly when the primary key is
    present. *)
Theorem query_database_short_tuple {V : Type} (database : gmap string V)
    (t : list Z) :
  (length t ≤ 1)%nat →
  query_database database (int_tuple t)
  = match database !! tuple_text ", " t with
    | Some r => Return r
    | None =>
        Raise (KeyError (not_found_message (int_tuple t)
                           (tuple_text ", " t) (tuple_text ", " t)))
    end.
Proof.
  intros Hlen. unfold int_tuple. rewrite query_database_tuple. fold (int_tuple t).
  rewrite py_repr_int_tuple_no_space, py_str_int_tuple.
  assert (Hsame : tuple_text "," t = tuple_text ", " t).
  { destruct t as [|x [|y t]]; [done|done|simpl in Hlen; lia]. }
  rewrite Hsame. by destruct (database !! tuple_text ", " t).
Qed.

Lemma query_database_short_tuple_witness :
  query_database ({[ "(5,)"%string := 7 ]} : gmap string Z) (int_tuple [5])
  = match ({[ "(5,)"%string := 7 ]} : gmap string Z) !! tuple_text ", " [5] with
    | Some r => Return r
    | None =>
        Raise (KeyError (not_found_message (int_tuple [5])
                           (tuple_text ", " [5]) (tuple_text ", " [5])))
    end.
Proof.
  apply (query_database_short_tuple ({[ "(5,)"%string := 7 ]} : gmap string Z) [5]).
  simpl. lia.
Defined.

(** X13. A table whose keys were all written without spaces answers like
    the table itself: a query with a tuple of integers returns the entry of
    that tuple, found by the second lookup, and raises the [KeyError] when
    the tuple has none. *)
Theorem query_database_compact_keys (database : gmap (list Z) Z) (t : list Z) :
  query_database (database_compact_keys database) (int_tuple t)
  = match database !! t with
    | Some r => Return r
    | None =>
        Raise (KeyError (not_found_message (int_tuple t)
                           (tuple_text ", " t) (tuple_text "," t)))
    end.
Proof.
  unfold int_tuple. rewrite query_database_tuple. fold (int_tuple t).
  rewrite py_repr_int_tuple_no_space, py_str_int_tuple.
  unfold database_compact_keys. rewrite (lookup_kmap (tuple_text ",")).
  destruct (kmap (tuple_text ",") database !! tuple_text ", " t) as [r|] eqn:E.
  - apply (lookup_kmap_Some (tuple_text ",")) in E as (t' & Heq & Ht').
    symmetry in Heq. apply tuple_text_cross in Heq as ->. by rewrite Ht'.
  - done.
Qed.

Example query_database_compact_keys_run :
  query_database (database_compact_keys {[ [0; 1] := 0; [1; 1] := 1 ]}) (int_tuple [1; 1])
  = Return 1.
Proof. vm_compute. reflexivity. Qed.

(** ** What an exception of [create_database] tells *)


